(** * CCompressZlib.h: the C shim of compress-nio in front of zlib

    The header [Sources/CCompressZlib/include/CCompressZlib.h] holds three
    [static inline] functions.  Two of them call a zlib initialisation macro
    with their own parameters, the third converts a [void *] to a [Bytef *].

    A C function is embedded as an interaction tree: what it asks of its
    environment (a call into zlib, an access to memory) is an event, what it
    returns is the leaf.  zlib itself is not part of the header, so the
    meaning of its two entry points is left to a handler, and every statement
    below holds for all handlers. *)

From Stdlib Require Import ZArith NArith List.
From Stdlib.Init Require Import Byte.
From ITree Require Import ITree ITreeFacts Events.State Events.StateFacts.
Import ListNotations.
Import ITreeNotations.
Local Open Scope itree_scope.

(** ** C data of the header *)

(** [int].  The header does no arithmetic on its [int] parameters: they are
    received and passed on by value, so no wrap-around ever applies.  Every
    value of [int] is an integer; what is shown for all integers holds for
    the values of [int]. *)
Definition int : Type := Z.

(** The pointee types the header names: [void], [Bytef] (zlib's
    [unsigned char]) and [z_stream]. *)
Variant ctype : Type :=
| Tvoid
| TBytef
| Tz_stream.

(** A pointer is the address it holds; the pointee type is a static label. *)
Record ptr (t : ctype) : Type := Ptr { address : N }.
Arguments Ptr {t} _%_N.
Arguments address {t} _.

(** The null pointer of every pointer type holds address zero. *)
Definition NULL {t : ctype} : ptr t := Ptr 0%N.

(** [z_streamp] is zlib's [z_stream *]. *)
Definition z_streamp : Type := ptr Tz_stream.

(** The cast [(U * ) p] between object pointer types keeps the address. *)
Definition ptr_cast {t : ctype} (u : ctype) (p : ptr t) : ptr u :=
  Ptr (address p).

(** ** What a function of the header can ask of its environment *)

(** The two zlib entry points the header uses.  [zlib.h] defines
    [deflateInit2] and [inflateInit2] as macros over the library's own
    functions; the header only sees them as calls returning [int]. *)
Variant zlibE : Type -> Type :=
| DeflateInit2 (strm : z_streamp)
               (level method windowBits memLevel strategy : int) : zlibE int
| InflateInit2 (strm : z_streamp) (windowBits : int) : zlibE int.

(** Reading and writing a byte of memory through a pointer. *)
Variant memE : Type -> Type :=
| Load (p : ptr TBytef) : memE byte
| Store (p : ptr TBytef) (b : byte) : memE unit.

Definition progE : Type -> Type := zlibE +' memE.

Arguments DeflateInit2 strm (level method windowBits memLevel strategy)%_Z.
Arguments InflateInit2 strm windowBits%_Z.

(** The zlib calls themselves, as the header writes them: one event each,
    answered by the environment.  These are what the wrappers are compared
    with. *)
Definition deflateInit2 (strm : z_streamp)
    (level method windowBits memLevel strategy : int) : itree progE int :=
  ITree.trigger (inl1 (DeflateInit2 strm level method windowBits memLevel strategy)).

Definition inflateInit2 (strm : z_streamp) (windowBits : int) : itree progE int :=
  ITree.trigger (inl1 (InflateInit2 strm windowBits)).

(** ** The three functions of the header *)

(** [[
static inline int CCompressZlib_deflateInit2(z_streamp strm, int level,
        int method, int windowBits, int memLevel, int strategy) {
    return deflateInit2(strm, level, method, windowBits, memLevel, strategy);
}
]] *)
Definition CCompressZlib_deflateInit2 (strm : z_streamp)
    (level method windowBits memLevel strategy : int) : itree progE int :=
  r <- deflateInit2 strm level method windowBits memLevel strategy ;;
  Ret r.

(** [[
static inline int CCompressZlib_inflateInit2(z_streamp strm, int windowBits) {
    return inflateInit2(strm, windowBits);
}
]] *)
Definition CCompressZlib_inflateInit2 (strm : z_streamp) (windowBits : int)
  : itree progE int :=
  r <- inflateInit2 strm windowBits ;;
  Ret r.

(** [[
static inline Bytef *CCompressZlib_voidPtr_to_BytefPtr(void *in) {
    return (Bytef * )in;
}
]]
    ([in] is a keyword here, the parameter is called [in_].) *)
Definition CCompressZlib_voidPtr_to_BytefPtr (in_ : ptr Tvoid)
  : itree progE (ptr TBytef) :=
  Ret (ptr_cast TBytef in_).

Arguments CCompressZlib_deflateInit2
  strm (level method windowBits memLevel strategy)%_Z.
Arguments CCompressZlib_inflateInit2 strm windowBits%_Z.

(** ** Running a function in an environment

    An environment is a handler [h : progE ~> Monads.stateT S (itree F)]:
    [S] is everything it keeps between events (the memory, with the
    [z_stream] objects and zlib's own state in it), [F] is whatever it may
    still do itself (fail, never answer), and [h _ e s] is the effect of the
    event [e] on [s] together with its answer.  [interp_state h f s] runs
    the function [f] from [s]; its leaves are pairs (final state, answer). *)

(** Only the answer of a run, without the final state. *)
Definition answer_of {S : Type} {F : Type -> Type} {R : Type}
    (run : itree F (S * R)) : itree F R :=
  ITree.map snd run.

(** ** A recording environment

    Not zlib: a stand-in that answers every library call with the code
    [answer] gives for it and keeps the list of all events it was asked, in
    order.  It is used to observe, on concrete arguments, what a function of
    the header asks of its environment. *)

Definition journal : Type := list (sigT progE).

Definition logged {T : Type} (e : progE T) : sigT progE := existT progE T e.

Definition reply (answer : zlibE int -> int) (T : Type) (e : progE T) : T :=
  match e with
  | inl1 z =>
      match z in zlibE X return (zlibE X -> X) with
      | DeflateInit2 _ _ _ _ _ _ => fun z' => answer z'
      | InflateInit2 _ _ => fun z' => answer z'
      end z
  | inr1 m =>
      match m in memE X return X with
      | Load _ => x00
      | Store _ _ => tt
      end
  end.

Definition recorder (answer : zlibE int -> int)
  : progE ~> Monads.stateT journal (itree void1) :=
  fun T e log => Ret (log ++ [logged e], reply answer T e).

(** An answer that tells the two entry points and their arguments apart. *)
Definition tell_apart (z : zlibE int) : int :=
  match z with
  | DeflateInit2 _ level method windowBits memLevel strategy =>
      (level + 10 * (method + 10 * (windowBits + 100 * (memLevel + 10 * strategy))))%Z
  | InflateInit2 _ windowBits => (- windowBits)%Z
  end.

(** ** Programs: what the functions ask for, whatever the environment *)

(** [return f(args);] adds nothing to the call [f(args)]. *)
Lemma return_of_call {E : Type -> Type} {R : Type} (call : itree E R) :
  (r <- call ;; Ret r) ≅ call.
Proof. apply bind_ret_r. Qed.

(** The cast keeps the address, and so the null pointer. *)
Lemma ptr_cast_address {t : ctype} (u : ctype) (p : ptr t) :
  address (ptr_cast u p) = address p.
Proof. destruct p as [a]. reflexivity. Qed.

Lemma ptr_cast_NULL {t : ctype} (u : ctype) : ptr_cast u (@NULL t) = @NULL u.
Proof. reflexivity. Qed.

(** A pointer is determined by its address. *)
Lemma ptr_address_inj {t : ctype} (p q : ptr t) : address p = address q -> p = q.
Proof. destruct p, q. simpl. intros ->. reflexivity. Qed.

Lemma ptr_eta {t : ctype} (p : ptr t) : Ptr (address p) = p.
Proof. apply ptr_address_inj. reflexivity. Qed.

(** ** Runs: the functions under an arbitrary environment *)

Section Run.

Context {S : Type} {F : Type -> Type}.
Variable h : progE ~> Monads.stateT S (itree F).

(** Running [return e;] where [e] is one event is running that event. *)
Lemma run_return_of_event {R : Type} (e : progE R) (s : S) :
  interp_state h (r <- ITree.trigger e ;; Ret r) s ≈ h R e s.
Proof.
  rewrite return_of_call.
  apply interp_state_trigger.
Qed.

Lemma answer_of_eutt {R : Type} (t u : itree F (S * R)) :
  t ≈ u -> answer_of t ≈ answer_of u.
Proof.
  intros Htu. unfold answer_of. rewrite Htu. reflexivity.
Qed.

End Run.

(** ** The functions observed by the recording environment *)

(** Level 9, method 8, 31 window bits, memory level 7, strategy 1 on the
    stream at address 4096: one event, the arguments in their places. *)
Example deflateInit2_recorded :
  interp_state (recorder tell_apart)
    (CCompressZlib_deflateInit2 (Ptr 4096) 9 8 31 7 1) []
  ≈ Ret ([logged (inl1 (DeflateInit2 (Ptr 4096) 9 8 31 7 1))], 173189%Z).
Proof.
  unfold CCompressZlib_deflateInit2, deflateInit2.
  rewrite run_return_of_event. reflexivity.
Qed.

Example inflateInit2_recorded :
  interp_state (recorder tell_apart)
    (CCompressZlib_inflateInit2 NULL 47) []
  ≈ Ret ([logged (inl1 (InflateInit2 NULL 47))], (-47)%Z).
Proof.
  unfold CCompressZlib_inflateInit2, inflateInit2.
  rewrite run_return_of_event. reflexivity.
Qed.

(** The same for all arguments and after any earlier events: the journal
    grows by the one zlib call, nothing before it is touched. *)
Lemma deflateInit2_journal (answer : zlibE int -> int) (log : journal)
    (strm : z_streamp) (level method windowBits memLevel strategy : int) :
  interp_state (recorder answer)
    (CCompressZlib_deflateInit2 strm level method windowBits memLevel strategy) log
  ≈ Ret (log ++ [logged (inl1 (DeflateInit2 strm level method windowBits memLevel strategy))],
         answer (DeflateInit2 strm level method windowBits memLevel strategy)).
Proof.
  unfold CCompressZlib_deflateInit2, deflateInit2.
  rewrite run_return_of_event. reflexivity.
Qed.

Lemma inflateInit2_journal (answer : zlibE int -> int) (log : journal)
    (strm : z_streamp) (windowBits : int) :
  interp_state (recorder answer) (CCompressZlib_inflateInit2 strm windowBits) log
  ≈ Ret (log ++ [logged (inl1 (InflateInit2 strm windowBits))],
         answer (InflateInit2 strm windowBits)).
Proof.
  unfold CCompressZlib_inflateInit2, inflateInit2.
  rewrite run_return_of_event. reflexivity.
Qed.

(** The cast asks nothing: the journal stays as it was. *)
Example voidPtr_to_BytefPtr_recorded :
  interp_state (recorder tell_apart)
    (CCompressZlib_voidPtr_to_BytefPtr (Ptr 4096)) []
  ≅ Ret ([], Ptr 4096).
Proof.
  unfold CCompressZlib_voidPtr_to_BytefPtr.
  rewrite interp_state_ret. reflexivity.
Qed.

(** ** The header's functions against zlib's entry points *)

(** C1.  For every argument tuple, [CCompressZlib_deflateInit2] is the call
    of zlib's [deflateInit2] on the same arguments in the same order, and
    [CCompressZlib_inflateInit2] is the call of zlib's [inflateInit2] on the
    same arguments: as programs they ask exactly what the zlib call asks,
    and in every environment, from every state, they return exactly the
    value the zlib call returns there. *)
Theorem CCompressZlib_init2_return_zlib_value :
  forall (S : Type) (F : Type -> Type)
         (h : progE ~> Monads.stateT S (itree F)) (s : S)
         (strm : z_streamp) (level method windowBits memLevel strategy : int),
    CCompressZlib_deflateInit2 strm level method windowBits memLevel strategy
      ≅ deflateInit2 strm level method windowBits memLevel strategy
    /\ CCompressZlib_inflateInit2 strm windowBits
      ≅ inflateInit2 strm windowBits
    /\ answer_of (interp_state h
          (CCompressZlib_deflateInit2 strm level method windowBits memLevel strategy) s)
      ≈ answer_of (h int
          (inl1 (DeflateInit2 strm level method windowBits memLevel strategy)) s)
    /\ answer_of (interp_state h (CCompressZlib_inflateInit2 strm windowBits) s)
      ≈ answer_of (h int (inl1 (InflateInit2 strm windowBits)) s).
Proof.
  intros S F h s strm level method windowBits memLevel strategy.
  split; [| split; [| split]].
  - unfold CCompressZlib_deflateInit2. apply return_of_call.
  - unfold CCompressZlib_inflateInit2. apply return_of_call.
  - apply answer_of_eutt.
    unfold CCompressZlib_deflateInit2, deflateInit2.
    apply run_return_of_event.
  - apply answer_of_eutt.
    unfold CCompressZlib_inflateInit2, inflateInit2.
    apply run_return_of_event.
Qed.

(** C2.  For every [void *] pointer [p],
    [CCompressZlib_voidPtr_to_BytefPtr p] returns the [Bytef *] pointer that
    holds the address of [p]; the address is unchanged, and the null pointer
    is returned for the null pointer. *)
Theorem CCompressZlib_voidPtr_to_BytefPtr_same_address :
  forall p : ptr Tvoid,
    CCompressZlib_voidPtr_to_BytefPtr p = Ret (Ptr (address p))
    /\ ITree.map address (CCompressZlib_voidPtr_to_BytefPtr p) ≅ Ret (address p)
    /\ CCompressZlib_voidPtr_to_BytefPtr NULL = Ret NULL.
Proof.
  intros p. unfold CCompressZlib_voidPtr_to_BytefPtr.
  split; [| split].
  - destruct p as [a]. reflexivity.
  - rewrite map_ret, ptr_cast_address. reflexivity.
  - rewrite ptr_cast_NULL. reflexivity.
Qed.

(** C9.  [CCompressZlib_voidPtr_to_BytefPtr] is total and without effect:
    for every pointer, the null pointer included, in every environment and
    from every state, the run ends at once with the converted pointer, asks
    the environment for nothing (no access through the pointer, no call)
    and leaves the state as it was. *)
Theorem CCompressZlib_voidPtr_to_BytefPtr_total_pure :
  forall (S : Type) (F : Type -> Type)
         (h : progE ~> Monads.stateT S (itree F)) (s : S) (p : ptr Tvoid),
    interp_state h (CCompressZlib_voidPtr_to_BytefPtr p) s
      ≅ Ret (s, Ptr (address p))
    /\ interp_state h (CCompressZlib_voidPtr_to_BytefPtr NULL) s
      ≅ Ret (s, NULL).
Proof.
  intros S F h s p. unfold CCompressZlib_voidPtr_to_BytefPtr.
  split; rewrite interp_state_ret.
  - destruct p as [a]. reflexivity.
  - rewrite ptr_cast_NULL. reflexivity.
Qed.

(** C10.  In every environment and from every state, running
    [CCompressZlib_deflateInit2] or [CCompressZlib_inflateInit2] is running
    the one zlib call they forward to: the final state and the answer are
    those of [deflateInit2] / [inflateInit2] on the same arguments, and
    nothing else is asked of the environment. *)
Theorem CCompressZlib_init2_effect_is_zlib_call :
  forall (S : Type) (F : Type -> Type)
         (h : progE ~> Monads.stateT S (itree F)) (s : S)
         (strm : z_streamp) (level method windowBits memLevel strategy : int),
    interp_state h
        (CCompressZlib_deflateInit2 strm level method windowBits memLevel strategy) s
      ≈ h int (inl1 (DeflateInit2 strm level method windowBits memLevel strategy)) s
    /\ interp_state h (CCompressZlib_inflateInit2 strm windowBits) s
      ≈ h int (inl1 (InflateInit2 strm windowBits)) s.
Proof.
  intros S F h s strm level method windowBits memLevel strategy.
  split.
  - unfold CCompressZlib_deflateInit2, deflateInit2.
    rewrite return_of_call. apply interp_state_trigger.
  - unfold CCompressZlib_inflateInit2, inflateInit2.
    rewrite return_of_call. apply interp_state_trigger.
Qed.

(** ** The functions inside a caller

    A caller does something with what a function of the header returns: the
    rest of the caller is a continuation [k] over the returned value. *)

(** X1.  In every caller, environment and state, calling a wrapper and going
    on with its result is calling zlib directly and going on with that
    result from the state the zlib call left: the wrappers can stand for the
    zlib calls anywhere. *)
Theorem CCompressZlib_init2_in_caller :
  forall (S : Type) (F : Type -> Type)
         (h : progE ~> Monads.stateT S (itree F)) (s : S)
         (R : Type) (k : int -> itree progE R)
         (strm : z_streamp) (level method windowBits memLevel strategy : int),
    interp_state h
        (r <- CCompressZlib_deflateInit2 strm level method windowBits memLevel strategy ;;
         k r) s
      ≈ (sr <- h int (inl1 (DeflateInit2 strm level method windowBits memLevel strategy)) s ;;
         interp_state h (k (snd sr)) (fst sr))
    /\ interp_state h (r <- CCompressZlib_inflateInit2 strm windowBits ;; k r) s
      ≈ (sr <- h int (inl1 (InflateInit2 strm windowBits)) s ;;
         interp_state h (k (snd sr)) (fst sr)).
Proof.
  intros S F h s R k strm level method windowBits memLevel strategy.
  split.
  - unfold CCompressZlib_deflateInit2, deflateInit2.
    rewrite return_of_call, interp_state_bind, interp_state_trigger.
    reflexivity.
  - unfold CCompressZlib_inflateInit2, inflateInit2.
    rewrite return_of_call, interp_state_bind, interp_state_trigger.
    reflexivity.
Qed.

(** X2.  The conversion never takes two pointers to one: if it returns the
    same for [p] and [q], then [p] and [q] are the same pointer. *)
Theorem CCompressZlib_voidPtr_to_BytefPtr_injective :
  forall p q : ptr Tvoid,
    CCompressZlib_voidPtr_to_BytefPtr p ≈ CCompressZlib_voidPtr_to_BytefPtr q ->
    p = q.
Proof.
  intros p q Hpq. unfold CCompressZlib_voidPtr_to_BytefPtr in Hpq.
  apply eqit_inv_Ret in Hpq.
  apply ptr_address_inj.
  rewrite <- (ptr_cast_address TBytef p), <- (ptr_cast_address TBytef q).
  rewrite Hpq. reflexivity.
Qed.

Lemma CCompressZlib_voidPtr_to_BytefPtr_injective_witness :
  CCompressZlib_voidPtr_to_BytefPtr (Ptr 4096)
    ≈ CCompressZlib_voidPtr_to_BytefPtr (Ptr 4096)
  /\ @Ptr Tvoid 4096 = Ptr 4096.
Proof.
  split.
  - reflexivity.
  - apply (CCompressZlib_voidPtr_to_BytefPtr_injective (Ptr 4096) (Ptr 4096)).
    reflexivity.
Defined.

(** X3.  In every caller, environment and state, converting [p] and going on
    with the result is going on with the [Bytef *] at the address of [p],
    from the same state; so a byte read through the converted pointer is the
    environment's byte at the address of [p]. *)
Theorem CCompressZlib_voidPtr_to_BytefPtr_in_caller :
  forall (S : Type) (F : Type -> Type)
         (h : progE ~> Monads.stateT S (itree F)) (s : S)
         (R : Type) (k : ptr TBytef -> itree progE R) (p : ptr Tvoid),
    interp_state h (q <- CCompressZlib_voidPtr_to_BytefPtr p ;; k q) s
      ≅ interp_state h (k (Ptr (address p))) s
    /\ interp_state h
         (q <- CCompressZlib_voidPtr_to_BytefPtr p ;; ITree.trigger (inr1 (Load q))) s
      ≈ h byte (inr1 (Load (Ptr (address p)))) s.
Proof.
  intros S F h s R k p. unfold CCompressZlib_voidPtr_to_BytefPtr.
  split.
  - rewrite bind_ret_l. reflexivity.
  - rewrite bind_ret_l. apply interp_state_trigger.
Qed.

(** X4.  Initialising a deflate stream and then an inflate stream through
    the wrappers asks the environment for exactly two things, in this order:
    the [deflateInit2] call and the [inflateInit2] call, each with its own
    arguments.  Nothing is read or written through a pointer, what was asked
    before stays in the journal, and the two codes come back as answered. *)
Theorem CCompressZlib_init2_sequence_journal :
  forall (answer : zlibE int -> int) (log : journal)
         (dstrm istrm : z_streamp)
         (level method dBits memLevel strategy iBits : int),
    interp_state (recorder answer)
      (d <- CCompressZlib_deflateInit2 dstrm level method dBits memLevel strategy ;;
       i <- CCompressZlib_inflateInit2 istrm iBits ;;
       Ret (d, i)) log
    ≈ Ret (log ++ [logged (inl1 (DeflateInit2 dstrm level method dBits memLevel strategy));
                   logged (inl1 (InflateInit2 istrm iBits))],
           (answer (DeflateInit2 dstrm level method dBits memLevel strategy),
            answer (InflateInit2 istrm iBits))).
Proof.
  intros answer log dstrm istrm level method dBits memLevel strategy iBits.
  rewrite interp_state_bind, deflateInit2_journal, bind_ret_l. cbn [fst snd].
  rewrite interp_state_bind, inflateInit2_journal, bind_ret_l. cbn [fst snd].
  rewrite interp_state_ret, <- app_assoc. reflexivity.
Qed.
